(** * The job-search bot gateway of [server.py]

    A shallow embedding of the Flask webhook route, the two search wrappers
    and the two Telegram handlers, followed by the properties the design
    document states about them.

    Python code that sends messages, queues work and raises exceptions is
    written in a small monad [M] over an explicit [World]; the monad keeps the
    effects made before an exception, as Python does. *)

From Stdlib Require Import String Ascii List ZArith Bool Arith Lia DecimalString.
Import ListNotations.
Local Open Scope list_scope.
Local Open Scope string_scope.

(** ** Python runtime *)

Module Py.

(** The line feed written [\n] in the source. *)
Definition nl : string := String (ascii_of_nat 10) EmptyString.

(** [str(n)] and [f"{n}"] for a non-negative count. *)
Definition str_of_nat (n : nat) : string :=
  NilZero.string_of_uint (Nat.to_uint n).

(** [f"{x:.0f}"] for a whole number of milliseconds. *)
Definition fmt_0f (x : Z) : string :=
  NilZero.string_of_int (Z.to_int x).

(** [sep.join(parts)] *)
Definition join (sep : string) (parts : list string) : string :=
  String.concat sep parts.

(** [s.split(sep)] for a one-character separator: one more piece than
    there are separators, the empty string giving one empty piece. *)
Fixpoint split (sep : ascii) (s : string) : list string :=
  match s with
  | EmptyString => [EmptyString]
  | String c rest =>
      if Ascii.eqb c sep then EmptyString :: split sep rest
      else match split sep rest with
           | piece :: pieces => String c piece :: pieces
           | [] => [String c EmptyString]
           end
  end.

(** [x in xs] for strings. *)
Definition mem (x : string) (xs : list string) : bool :=
  existsb (String.eqb x) xs.

(** [not s]: the empty string is the only false one. *)
Definition is_empty (s : string) : bool :=
  match s with EmptyString => true | String _ _ => false end.

(** [enumerate(xs, 1)] *)
Definition enumerate1 {A : Type} (xs : list A) : list (nat * A) :=
  combine (seq 1 (length xs)) xs.

(** [d.get(key, default)] on the item list of a dict. *)
Fixpoint get {V : Type} (d : list (string * V)) (key : string) (default : V) : V :=
  match d with
  | [] => default
  | (k, v) :: rest => if String.eqb k key then v else get rest key default
  end.

(** An instance of Python's [Exception]; [str(e)] is [exn_msg]. *)
Record exn : Type := mkExn { exn_class : string; exn_msg : string }.

Definition str (e : exn) : string := exn_msg e.

Definition AttributeError (attr : string) : exn :=
  mkExn "AttributeError"
        ("'NoneType' object has no attribute '" ++ attr ++ "'").

(** Reading a local variable of a frame before any assignment to it. *)
Definition UnboundLocalError (name : string) : exn :=
  mkExn "UnboundLocalError"
        ("cannot access local variable '" ++ name
           ++ "' where it is not associated with a value").

(** What Flask's [request] proxy raises on a thread that serves no HTTP
    request (the first sentence of its text). *)
Definition outside_request_context : exn :=
  mkExn "RuntimeError" "Working outside of request context.".

(** ASCII instances of [str.strip] and [str.lower], used to run the model
    on concrete inputs. *)
Definition is_space (c : ascii) : bool :=
  let n := nat_of_ascii c in
  ((n =? 32) || ((9 <=? n) && (n <=? 13)) || ((28 <=? n) && (n <=? 31)))%nat.

Fixpoint lstrip (s : string) : string :=
  match s with
  | EmptyString => EmptyString
  | String c rest => if is_space c then lstrip rest else s
  end.

Fixpoint rstrip (s : string) : string :=
  match s with
  | EmptyString => EmptyString
  | String c rest =>
      match rstrip rest with
      | EmptyString => if is_space c then EmptyString else String c EmptyString
      | kept => String c kept
      end
  end.

Definition ascii_strip (s : string) : string := rstrip (lstrip s).

Definition lower_char (c : ascii) : ascii :=
  let n := nat_of_ascii c in
  if ((65 <=? n) && (n <=? 90))%nat then ascii_of_nat (n + 32) else c.

Fixpoint ascii_lower (s : string) : string :=
  match s with
  | EmptyString => EmptyString
  | String c rest => String (lower_char c) (ascii_lower rest)
  end.

End Py.

(** ** Data of the Telegram and Flask layers *)

(** The local [user_id]: a numeric id or the string ['unknown']. *)
Inductive UserId : Type :=
| UserNum (n : Z)
| UserUnknown.

Record Message : Type := mkMessage { chat_id : Z; text : string }.

Record InlineQuery : Type := mkInlineQuery { query_id : string; query : string }.

(** [telegram.Update], with the attributes the handlers read; an attribute
    that is [None] in Python is [None] here. *)
Record Update : Type := mkUpdate {
  update_id : Z;
  effective_user : option Z;
  message : option Message;
  inline_query : option InlineQuery
}.

Record InputTextMessageContent : Type := mkContent {
  message_text : string;
  disable_web_page_preview : option bool
}.

(** [telegram.InlineQueryResultArticle] *)
Module Article.
Record t : Type := mk {
  id : string;
  title : string;
  description : string;
  input_message_content : InputTextMessageContent
}.
End Article.

(** The incoming HTTP request: its query-string arguments, and what
    [Update.de_json(request.get_json(force=True), bot)] makes of its body. *)
Inductive Parsed : Type :=
| BadBody (e : Py.exn)
| GoodBody (u : Update).

Record Request : Type := mkRequest {
  args : list (string * string);
  body : Parsed
}.

(** [jsonify(dict), status] *)
Record Response : Type := mkResponse {
  json : list (string * string);
  status : Z
}.

Record Application : Type := mkApplication { token : string }.

(** ** Search results *)

(** A value of the dict returned by [search_all_sites]: a number (the
    ['global_time'] entry) or a per-site dict, whose ['jobs'] and ['timing']
    keys may be absent. *)
Inductive RawValue : Type :=
| RawNumber (n : Z)
| RawDict (jobs : option (list string)) (timing : option Z).

Definition RawResults : Type := list (string * RawValue).

Record SiteData : Type := mkSiteData { jobs : list string; timing_ms : Z }.

(** The dict the two search wrappers return: either
    [{"global_time_ms": .., "results": {..}}] or [{"error": ..}]. *)
Inductive SearchResults : Type :=
| Formatted (global_time_ms : RawValue) (results : list (string * SiteData))
| ErrorDict (error : string).

(** ** The world and the monad *)

Inductive Event : Type :=
| ReplyText (chat : Z) (msg : string) (no_preview : option bool)
| AnswerInline (qid : string) (entries : list Article.t)
               (cache_time : Z)
| SearchAllSites (keyword : string) (sites : list string).

(** Module-level state and the outside world: the bot singleton, the work
    handed to the thread pool with [executor.submit], in the order of the
    submissions, the updates whose processing has finished, and everything
    sent or called so far. *)
Record World : Type := mkWorld {
  telegram_app : option Application;
  executor_queue : list Update;
  processed : list Update;
  trace : list Event
}.

Definition emit (ev : Event) (w : World) : World :=
  mkWorld (telegram_app w) (executor_queue w) (processed w) (trace w ++ [ev]).

Definition enqueue (u : Update) (w : World) : World :=
  mkWorld (telegram_app w) (executor_queue w ++ [u]) (processed w) (trace w).

Inductive Outcome (A : Type) : Type :=
| Return (a : A)
| Raise (e : Py.exn).
Arguments Return {A} a.
Arguments Raise {A} e.

(** The locals of a running function that the code reads in a place where
    they may not have been assigned yet. *)
Record Frame : Type := mkFrame { user_id : option UserId }.

(** A function body runs in its frame; a whole function ([Proc]) does not
    show it. *)
Definition M (A : Type) : Type := Frame -> World -> Outcome A * Frame * World.
Definition Proc (A : Type) : Type := World -> Outcome A * World.

Definition ret {A : Type} (a : A) : M A :=
  fun fr w => (Return a, fr, w).

Definition bind {A B : Type} (m : M A) (k : A -> M B) : M B :=
  fun fr w =>
    match m fr w with
    | (Return a, fr', w') => k a fr' w'
    | (Raise e, fr', w') => (Raise e, fr', w')
    end.

Definition raise {A : Type} (e : Py.exn) : M A :=
  fun fr w => (Raise e, fr, w).

(** [try: body / except Exception as e: handler e] *)
Definition try_except {A : Type} (body : M A) (handler : Py.exn -> M A) : M A :=
  fun fr w =>
    match body fr w with
    | (Return a, fr', w') => (Return a, fr', w')
    | (Raise e, fr', w') => handler e fr' w'
    end.

(** [def f(..): body], entered with no local assigned. *)
Definition def {A : Type} (body : M A) : Proc A :=
  fun w => let '(r, _, w') := body (mkFrame None) w in (r, w').

(** A call of another function from inside a body. *)
Definition call {A : Type} (p : Proc A) : M A :=
  fun fr w => let '(r, w') := p w in (r, fr, w').

Declare Scope py_scope.
Delimit Scope py_scope with py.
Notation "x <- m ;; k" := (bind m (fun x => k))
  (at level 61, m at next level, right associativity) : py_scope.
Notation "m ;; k" := (bind m (fun _ => k))
  (at level 61, right associativity) : py_scope.
Local Open Scope py_scope.

Definition do (f : World -> World) : M unit :=
  fun fr w => (Return tt, fr, f w).

(** [user_id = v] *)
Definition assign_user_id (v : UserId) : M unit :=
  fun _ w => (Return tt, mkFrame (Some v), w).

(** A read of [user_id], as in the f-strings of the log calls. *)
Definition read_user_id : M UserId :=
  fun fr w =>
    match user_id fr with
    | Some v => (Return v, fr, w)
    | None => (Raise (Py.UnboundLocalError "user_id"), fr, w)
    end.

(** [update.effective_user.id] *)
Definition effective_user_id (update : Update) : M Z :=
  match effective_user update with
  | Some n => ret n
  | None => raise (Py.AttributeError "id")
  end.

(** [update.effective_user.id if update.effective_user else 'unknown'] *)
Definition user_id_or_unknown (update : Update) : UserId :=
  match effective_user update with
  | Some n => UserNum n
  | None => UserUnknown
  end.

(** [await update.message.reply_text(msg, disable_web_page_preview=..)] *)
Definition reply_text (update : Update) (msg : string) (no_preview : option bool)
  : M unit :=
  match message update with
  | Some m => do (emit (ReplyText (chat_id m) msg no_preview))
  | None => raise (Py.AttributeError "reply_text")
  end.

(** [await update.inline_query.answer(entries, cache_time=..)] *)
Definition answer (update : Update) (entries : list Article.t)
    (cache_time : Z) : M unit :=
  match inline_query update with
  | Some q => do (emit (AnswerInline (query_id q) entries cache_time))
  | None => raise (Py.AttributeError "answer")
  end.

(** ** A small deployment to run the model on *)

Module Demo.

Definition AVAILABLE_SITES : list string := ["hh"; "geekjob"].
Definition DEFAULT_SITE_CHOICES : list string := ["hh"].

Definition get_site_name (site : string) : string :=
  if String.eqb site "hh" then "HeadHunter" else site.

(** One source that answers with no job at all. *)
Definition search_nothing (keyword : string) (sites : list string)
  : Outcome RawResults :=
  Return [("hh", RawDict (Some []) (Some 5%Z)); ("global_time", RawNumber 5)].

(** One source with four jobs and one whose dict has no keys. *)
Definition search_four (keyword : string) (sites : list string)
  : Outcome RawResults :=
  Return [("hh", RawDict (Some ["a"; "b"; "c"; "d"]) (Some 120%Z));
          ("geekjob", RawDict None None);
          ("global_time", RawNumber 130)].

(** A search service that fails as a whole. *)
Definition search_down (keyword : string) (sites : list string)
  : Outcome RawResults :=
  Raise (Py.mkExn "ConnectionError" "network unreachable").

Definition command : Update :=
  mkUpdate 1 (Some 7%Z) (Some (mkMessage 42 "/search python")) None.

Definition inline (q : string) : Update :=
  mkUpdate 2 (Some 7%Z) None (Some (mkInlineQuery "q1" q)).

Definition post : Request := mkRequest [] (GoodBody command).

Definition post_sites : Request :=
  mkRequest [("sites", " HH ,foo")] (GoodBody command).

Definition post_unknown_sites : Request :=
  mkRequest [("sites", "foo,bar")] (GoodBody command).

Definition malformed_post : Request :=
  mkRequest [] (BadBody (Py.mkExn "BadRequest" "400 Bad Request")).

Definition running : World :=
  mkWorld (Some (mkApplication "token")) [] [] [].

Definition uninitialized : World := mkWorld None [] [] [].

End Demo.

(** ** The search wrappers *)

Section Server.

Set Default Proof Using "Type".

(** [str.strip] and [str.lower] of the Python runtime. *)
Variable str_strip : string -> string.
Variable str_lower : string -> string.

(** [Settings.AVAILABLE_SITES], [Settings.DEFAULT_SITE_CHOICES] and
    [Settings.get_site_name] of the configuration module. *)
Variable AVAILABLE_SITES : list string.
Variable DEFAULT_SITE_CHOICES : list string.
Variable get_site_name : string -> string.

(** [search_service.search_all_sites(keyword, None, sites)]: the dict it
    returns, or the exception it raises. *)
Variable search_all_sites : string -> list string -> Outcome RawResults.

Definition call_search_all_sites (keyword : string) (sites : list string)
  : M RawResults :=
  fun fr w =>
    (search_all_sites keyword sites, fr, emit (SearchAllSites keyword sites) w).

(** [request.args] through Flask's context-local proxy: the arguments of
    the request the current thread serves, if it serves one. *)
Definition request_args (request : option Request) : M (list (string * string)) :=
  match request with
  | Some r => ret (args r)
  | None => raise Py.outside_request_context
  end.

(** [[site.strip().lower() for site in sites
      if site.strip().lower() in Settings.AVAILABLE_SITES]] *)
Definition valid_sites (sites : list string) : list string :=
  map (fun site => str_lower (str_strip site))
      (filter (fun site => Py.mem (str_lower (str_strip site)) AVAILABLE_SITES)
              sites).

(** The sites [search_jobs] searches for the arguments of a request
    (lines 42 to 46). *)
Definition requested_sites (request_args : list (string * string)) : list string :=
  let sites :=
    Py.split ","%char
      (Py.get request_args "sites" (Py.join "," DEFAULT_SITE_CHOICES)) in
  let sites := valid_sites sites in
  match sites with
  | [] => DEFAULT_SITE_CHOICES
  | _ :: _ => sites
  end.

(** The dict comprehension over [results.items()]: the per-site dicts
    other than ['global_time'], in the order of the dict. *)
Fixpoint site_results (items : RawResults) : list (string * SiteData) :=
  match items with
  | [] => []
  | (site_name, RawDict j t) :: rest =>
      if String.eqb site_name "global_time" then site_results rest
      else (site_name,
            mkSiteData (match j with Some l => l | None => [] end)
                       (match t with Some n => n | None => 0%Z end))
           :: site_results rest
  | (_, RawNumber _) :: rest => site_results rest
  end.

(** [formatted_results], built the same way in both wrappers. *)
Definition format_results (raw : RawResults) : SearchResults :=
  Formatted (Py.get raw "global_time" (RawNumber 0)) (site_results raw).

Definition search_jobs (request : option Request) (keyword : string)
  : Proc SearchResults :=
  def (try_except
         (a <- request_args request ;;
          let sites := requested_sites a in
          raw <- call_search_all_sites keyword sites ;;
          ret (format_results raw))
         (fun e => ret (ErrorDict (Py.str e)))).

Definition search_jobs_for_inline (keyword : string) (sites : option (list string))
  : Proc SearchResults :=
  def (try_except
         (let sites := match sites with
                       | None => DEFAULT_SITE_CHOICES
                       | Some s => s
                       end in
          raw <- call_search_all_sites keyword sites ;;
          ret (format_results raw))
         (fun e => ret (ErrorDict (Py.str e)))).

(** ** The webhook route *)

Definition jsonify_error (msg : string) : Response :=
  mkResponse [("status", "error"); ("message", msg)] 500.

Definition jsonify_success : Response :=
  mkResponse [("status", "success")] 200.

(** [Update.de_json(request.get_json(force=True), telegram_app.bot)] *)
Definition de_json (request : Request) : M Update :=
  match body request with
  | GoodBody u => ret u
  | BadBody e => raise e
  end.

(** [executor.submit(lambda: ...)]: the work is queued for a pool thread
    and the call returns its future at once. *)
Definition executor_submit (update : Update) : M unit :=
  do (enqueue update).

Definition telegram_webhook (request : Request) : Proc Response :=
  def (fun fr w =>
         match telegram_app w with
         | None => ret (jsonify_error "Telegram bot not initialized") fr w
         | Some _ =>
             try_except
               (update <- de_json request ;;
                assign_user_id (user_id_or_unknown update) ;;
                _ <- read_user_id ;;          (* logger.info *)
                executor_submit update ;;
                ret jsonify_success)
               (fun e =>
                  _ <- read_user_id ;;          (* logger.error *)
                  ret (jsonify_error (Py.str e)))
               fr w
         end).

(** ** The [/search] command *)

Definition numbered (prefix : string) (items : list string) : list string :=
  map (fun '(idx, job) => prefix ++ Py.str_of_nat idx ++ ". " ++ job)
      (Py.enumerate1 items).

(** What one pass of the loop of lines 137 to 141 appends to [response]. *)
Definition search_block (site : string) (data : SiteData) : list string :=
  let sub_header :=
    Py.nl ++ "🏢 " ++ get_site_name site
      ++ " (" ++ Py.fmt_0f (timing_ms data) ++ " ms):" in
  (sub_header :: numbered "" (firstn 3 (jobs data)) ++ [""])%list.

Definition search_response (res : list (string * SiteData)) : list string :=
  "🔍 Search Results:"
    :: flat_map (fun '(site, data) => search_block site data) res.

(** Line 143. *)
Definition search_message (res : list (string * SiteData)) : string :=
  let response := search_response res in
  if (1 <? length response)%nat then Py.join Py.nl response
  else "No jobs found".

Definition usage_text : string := "Usage: /search <job_keyword>".

(** [request] is the request context of the pool thread on which
    [run_in_executor] runs [search_jobs]. *)
Definition handle_search (request : option Request) (update : Update)
    (context_args : list string) : Proc unit :=
  def (try_except
         (let keyword := Py.join " " context_args in
          if Py.is_empty keyword then
            reply_text update usage_text None ;;
            _ <- effective_user_id update ;;
            ret tt
          else
            _ <- effective_user_id update ;;
            found <- call (search_jobs request keyword) ;;
            match found with
            | ErrorDict err =>
                reply_text update ("🚨 Error: " ++ err) None ;;
                _ <- effective_user_id update ;;
                ret tt
            | Formatted _ res =>
                reply_text update (search_message res) (Some true) ;;
                _ <- effective_user_id update ;;
                ret tt
            end)
         (fun e =>
            _ <- effective_user_id update ;;
            reply_text update ("🚨 Error: " ++ Py.str e) None)).

(** ** The inline query handler *)

Definition article (id title description message_text : string)
    (no_preview : option bool) : Article.t :=
  Article.mk id title description (mkContent message_text no_preview).

Definition usage_article : Article.t :=
  article "usage" "💼 IT Jobs Finder Bot"
    "Type a job keyword to search for jobs (e.g., 'python developer')"
    ("Usage: @itjobsfinder_bot <job_keyword>" ++ Py.nl
       ++ "Example: @itjobsfinder_bot python developer")
    None.

Definition loading_article (q : string) : Article.t :=
  article "loading" ("🔍 Searching for '" ++ q ++ "'...")
    "Please wait while we search job sites"
    ("🔍 Searching for jobs: " ++ q ++ "...")
    None.

Definition error_article (q err : string) : Article.t :=
  article "error" "❌ Search Error" ("Error: " ++ err)
    ("🚨 Search Error for '" ++ q ++ "': " ++ err)
    None.

Definition no_results_article (q : string) : Article.t :=
  article "no_results" "😔 No Jobs Found" ("No jobs found for '" ++ q ++ "'")
    ("😔 No jobs found for: " ++ q ++ Py.nl ++ Py.nl
       ++ "Try different keywords or check back later.")
    None.

Definition error_general_article (msg : string) : Article.t :=
  article "error_general" "❌ Error" "An error occurred while searching"
    ("🚨 An error occurred while searching: " ++ msg)
    None.

(** [sum(len(r['jobs']) for r in search_results.get('results', {}).values())] *)
Definition total_jobs (res : list (string * SiteData)) : nat :=
  list_sum (map (fun '(_, data) => length (jobs data)) res).

(** [if jobs:] and [jobs_count > 0] *)
Definition has_jobs (entry : string * SiteData) : bool :=
  match jobs (snd entry) with
  | [] => false
  | _ :: _ => true
  end.

(** What one pass of the loop of lines 226 to 232 appends to
    [summary_text]. *)
Definition summary_block (entry : string * SiteData) : list string :=
  let '(site, data) := entry in
  let sub_header :=
    "🏢 " ++ get_site_name site ++ ": "
      ++ Py.str_of_nat (length (jobs data)) ++ " jobs ("
      ++ Py.fmt_0f (timing_ms data) ++ "ms)" in
  if has_jobs entry then
    (sub_header :: numbered "  " (firstn 5 (jobs data)) ++ [""])%list
  else [].

Definition summary_text (q : string) (res : list (string * SiteData))
  : list string :=
  ("🔍 Job Search Results for: " ++ q ++ Py.nl) :: flat_map summary_block res.

Definition summary_article (q : string) (res : list (string * SiteData))
  : Article.t :=
  article "summary"
    ("💼 " ++ Py.str_of_nat (total_jobs res) ++ " Jobs Found")
    ("Found " ++ Py.str_of_nat (total_jobs res) ++ " jobs for '" ++ q ++ "'")
    (Py.join Py.nl (summary_text q res))
    (Some true).

Definition site_text (q : string) (entry : string * SiteData) : list string :=
  ("🏢 " ++ get_site_name (fst entry) ++ " - " ++ q ++ Py.nl)
    :: numbered "" (firstn 10 (jobs (snd entry))).

Definition site_article (q : string) (entry : string * SiteData) : Article.t :=
  let name := get_site_name (fst entry) in
  let count := Py.str_of_nat (length (jobs (snd entry))) in
  article ("site_" ++ fst entry)
    ("🏢 " ++ name ++ " (" ++ count ++ " jobs)")
    (count ++ " jobs found on " ++ name)
    (Py.join Py.nl (site_text q entry))
    (Some true).

(** [inline_results] as lines 209 to 264 build it. *)
Definition inline_results (q : string) (res : list (string * SiteData))
  : list Article.t :=
  if (total_jobs res =? 0)%nat then [no_results_article q]
  else summary_article q res :: map (site_article q) (filter has_jobs res).

(** [update.inline_query.query] *)
Definition inline_query_text (update : Update) : M string :=
  match inline_query update with
  | Some q => ret (query q)
  | None => raise (Py.AttributeError "query")
  end.

Definition handle_inline_query (update : Update) : Proc unit :=
  def (try_except
         (raw_query <- inline_query_text update ;;
          let q := str_strip raw_query in
          assign_user_id (user_id_or_unknown update) ;;
          if Py.is_empty q then
            answer update [usage_article] 300
          else
            answer update [loading_article q] 1 ;;
            _ <- read_user_id ;;              (* logger.debug *)
            found <- call (search_jobs_for_inline q None) ;;
            match found with
            | ErrorDict err =>
                answer update [error_article q err] 60 ;;
                _ <- read_user_id ;;          (* logger.error *)
                ret tt
            | Formatted _ res =>
                answer update (firstn 50 (inline_results q res)) 300 ;;
                _ <- read_user_id ;;          (* logger.info *)
                ret tt
            end)
         (fun e =>
            _ <- read_user_id ;;              (* logger.error *)
            answer update [error_general_article (Py.str e)] 60)).

(** ** The bridge contract, as the design document words it *)

(** A success status is returned only for an update whose processing has
    finished. *)
Definition success_means_processed : Prop :=
  forall request update w resp w',
    telegram_app w <> None ->
    body request = GoodBody update ->
    telegram_webhook request w = (Return resp, w') ->
    status resp = 200%Z ->
    In update (processed w').

(** * Properties *)

Ltac run :=
  unfold def, try_except, bind, ret, raise, call, do, assign_user_id,
    read_user_id; cbn.

(** ** Webhook route *)

(** C4: while the bot singleton is [None], a webhook POST is answered with
    the error body and status 500, and the world is left as it was: nothing
    is queued, processed or sent. *)
Theorem webhook_uninitialized (request : Request) (w : World) :
  telegram_app w = None ->
  telegram_webhook request w
  = (Return (mkResponse [("status", "error");
                         ("message", "Telegram bot not initialized")] 500),
     w).
Proof.
  intros Hnone. unfold telegram_webhook, def. rewrite Hnone. reflexivity.
Qed.

(** C1, as the code has it: an accepted submission is handed to the pool
    and answered with the success body and status 200 without waiting for
    its processing: the submission is the only thing the call does. *)
Theorem webhook_queues_and_returns (request : Request) (update : Update)
    (w : World) :
  telegram_app w <> None ->
  body request = GoodBody update ->
  telegram_webhook request w = (Return jsonify_success, enqueue update w).
Proof.
  intros Happ Hbody. unfold telegram_webhook, def.
  destruct (telegram_app w) as [app|]; [|contradiction].
  unfold de_json, executor_submit. rewrite Hbody. reflexivity.
Qed.

(** C10: when parsing the body raises, the [except] branch of the webhook
    route reads the unassigned [user_id] and the route raises
    [UnboundLocalError] (a [NameError]) where the error body was to be
    returned; the inline handler does the same when [update.inline_query]
    cannot be read. *)
Theorem except_reads_unbound_user_id :
  (forall (request : Request) (e : Py.exn) (w : World),
      telegram_app w <> None ->
      body request = BadBody e ->
      telegram_webhook request w = (Raise (Py.UnboundLocalError "user_id"), w))
  /\ (forall (update : Update) (w : World),
        inline_query update = None ->
        handle_inline_query update w
        = (Raise (Py.UnboundLocalError "user_id"), w)).
Proof.
  split.
  - intros request e w Happ Hbody. unfold telegram_webhook, def.
    destruct (telegram_app w) as [app|]; [|contradiction].
    unfold de_json. rewrite Hbody. reflexivity.
  - intros update w Hnone. unfold handle_inline_query, inline_query_text.
    rewrite Hnone. reflexivity.
Qed.

(** ** Search wrappers *)

Lemma mem_In (x : string) (xs : list string) :
  Py.mem x xs = true <-> In x xs.
Proof.
  unfold Py.mem. rewrite existsb_exists. split.
  - intros [y [Hin Heq]]. apply String.eqb_eq in Heq. now subst.
  - intros Hin. exists x. split; [assumption | apply String.eqb_refl].
Qed.

Lemma valid_sites_spec (sites : list string) (s : string) :
  In s (valid_sites sites)
  <-> exists raw, In raw sites /\ s = str_lower (str_strip raw)
                  /\ In s AVAILABLE_SITES.
Proof.
  unfold valid_sites. rewrite in_map_iff. split.
  - intros [raw [Heq Hin]]. apply filter_In in Hin. destruct Hin as [Hin Hmem].
    exists raw. subst s. repeat split; [assumption | now apply mem_In].
  - intros [raw [Hin [Heq Hav]]]. exists raw. split; [now symmetry |].
    apply filter_In. split; [assumption |]. apply mem_In. now subst s.
Qed.

(** C9: neither wrapper raises. Whatever the request context, the keyword
    and the sites, each returns a dict; an exception of the search service
    comes back as [{"error": str(e)}]; and outside a request context
    [search_jobs] returns the error dict of Flask's [RuntimeError] without
    calling the search service. *)
Theorem search_wrappers_never_raise :
  (forall request keyword w, exists found,
      fst (search_jobs request keyword w) = Return found)
  /\ (forall keyword sites w, exists found,
        fst (search_jobs_for_inline keyword sites w) = Return found)
  /\ (forall request keyword e w,
        search_all_sites keyword (requested_sites (args request)) = Raise e ->
        fst (search_jobs (Some request) keyword w)
        = Return (ErrorDict (Py.str e)))
  /\ (forall keyword sites e w,
        search_all_sites keyword
          (match sites with None => DEFAULT_SITE_CHOICES | Some l => l end)
        = Raise e ->
        fst (search_jobs_for_inline keyword sites w)
        = Return (ErrorDict (Py.str e)))
  /\ (forall keyword w,
        search_jobs None keyword w
        = (Return (ErrorDict (Py.str Py.outside_request_context)), w)).
Proof.
  repeat split.
  - intros [request|] keyword w; unfold search_jobs; run.
    + destruct (search_all_sites keyword _) as [raw|e]; eexists; reflexivity.
    + eexists; reflexivity.
  - intros keyword sites w. unfold search_jobs_for_inline. run.
    destruct (search_all_sites keyword _) as [raw|e]; eexists; reflexivity.
  - intros request keyword e w Hraise. unfold search_jobs. run.
    rewrite Hraise. reflexivity.
  - intros keyword sites e w Hraise. unfold search_jobs_for_inline. run.
    rewrite Hraise. reflexivity.
Qed.

(** C5: inside a request, [search_jobs] calls the search service exactly
    once, with the requested ids that are in the registry once trimmed and
    lowercased, or with the default set when none is; with a non-empty
    default set the sites it passes are never empty. *)
Theorem search_jobs_sites (request : Request) (keyword : string) (w : World) :
  DEFAULT_SITE_CHOICES <> [] ->
  let asked :=
    Py.split ","%char
      (Py.get (args request) "sites" (Py.join "," DEFAULT_SITE_CHOICES)) in
  let sites := requested_sites (args request) in
  snd (search_jobs (Some request) keyword w)
  = emit (SearchAllSites keyword sites) w
  /\ sites <> []
  /\ (forall s, In s (valid_sites asked)
                <-> exists raw, In raw asked /\ s = str_lower (str_strip raw)
                                /\ In s AVAILABLE_SITES)
  /\ (valid_sites asked <> [] -> sites = valid_sites asked)
  /\ (valid_sites asked = [] -> sites = DEFAULT_SITE_CHOICES).
Proof.
  intros Hdefault asked sites. repeat split.
  - unfold search_jobs. run. fold sites.
    destruct (search_all_sites keyword sites); reflexivity.
  - subst sites. unfold requested_sites. fold asked.
    destruct (valid_sites asked); [assumption | discriminate].
  - apply valid_sites_spec.
  - apply valid_sites_spec.
  - intros Hvalid. subst sites. unfold requested_sites. fold asked.
    destruct (valid_sites asked); [contradiction | reflexivity].
  - intros Hvalid. subst sites. unfold requested_sites. fold asked.
    now rewrite Hvalid.
Qed.

(** ** The [/search] command *)

Lemma is_empty_false (s : string) : s <> "" -> Py.is_empty s = false.
Proof. destruct s; [contradiction | reflexivity]. Qed.

(** An empty keyword is answered with the usage line and nothing else
    happens: no search is made. *)
Lemma search_command_usage (request : option Request) (update : Update)
    (m : Message) (context_args : list string) (w : World) :
  message update = Some m ->
  Py.join " " context_args = "" ->
  snd (handle_search request update context_args w)
  = emit (ReplyText (chat_id m) usage_text None) w.
Proof.
  intros Hmsg Hkw. unfold handle_search. run. rewrite Hkw. cbn.
  unfold reply_text, effective_user_id. rewrite Hmsg.
  destruct (effective_user update); reflexivity.
Qed.

(** C2, what the code does with a keyword: the handler runs [search_jobs]
    on a pool thread, where no request context exists, so the user is sent
    the error text of Flask's [RuntimeError] and the search service is not
    called. *)
Theorem search_command_outside_request (update : Update) (m : Message)
    (uid : Z) (context_args : list string) (w : World) :
  message update = Some m ->
  effective_user update = Some uid ->
  Py.join " " context_args <> "" ->
  handle_search None update context_args w
  = (Return tt,
     emit (ReplyText (chat_id m)
             "🚨 Error: Working outside of request context." None) w).
Proof.
  intros Hmsg Huser Hkw. unfold handle_search. run.
  rewrite (is_empty_false _ Hkw).
  unfold reply_text, effective_user_id. rewrite Hmsg, Huser. reflexivity.
Qed.

(** ** The inline query handler *)

Lemma length_numbered (prefix : string) (items : list string) :
  length (numbered prefix items) = length items.
Proof.
  unfold numbered, Py.enumerate1.
  rewrite length_map, length_combine, length_seq. apply Nat.min_id.
Qed.

Lemma has_jobs_true (e : string * SiteData) :
  has_jobs e = true <-> jobs (snd e) <> [].
Proof.
  unfold has_jobs. destruct (jobs (snd e)); split; intro H;
    (discriminate || reflexivity || contradiction).
Qed.

(** The blocks of the summary, written out: only the sources with a job
    have one. *)
Lemma summary_blocks_of_sources (res : list (string * SiteData)) :
  flat_map summary_block res
  = flat_map
      (fun e =>
         let shown := firstn 5 (jobs (snd e)) in
         let sub_header :=
           "🏢 " ++ get_site_name (fst e) ++ ": "
             ++ Py.str_of_nat (length (jobs (snd e))) ++ " jobs ("
             ++ Py.fmt_0f (timing_ms (snd e)) ++ "ms)" in
         (sub_header
            :: map (fun '(idx, job) =>
                      ("  " ++ Py.str_of_nat idx ++ ". " ++ job)%string)
                   (combine (seq 1 (length shown)) shown)
            ++ [""])%list)
      (filter has_jobs res).
Proof.
  induction res as [|[site data] rest IH]; [reflexivity|].
  cbn [flat_map filter]. unfold summary_block at 1.
  destruct (has_jobs (site, data)).
  - cbn [flat_map]. rewrite IH. reflexivity.
  - exact IH.
Qed.

(** The handler on a query that is not empty once trimmed and whose search
    returns: the placeholder answer, the search over the default sites,
    then the settled answer. *)
Lemma inline_query_settled (update : Update) (iq : InlineQuery)
    (raw : RawResults) (w : World) :
  inline_query update = Some iq ->
  str_strip (query iq) <> "" ->
  search_all_sites (str_strip (query iq)) DEFAULT_SITE_CHOICES = Return raw ->
  handle_inline_query update w
  = (Return tt,
     emit (AnswerInline (query_id iq)
             (firstn 50 (inline_results (str_strip (query iq))
                           (site_results raw))) 300)
       (emit (SearchAllSites (str_strip (query iq)) DEFAULT_SITE_CHOICES)
          (emit (AnswerInline (query_id iq)
                   [loading_article (str_strip (query iq))] 1) w))).
Proof.
  intros Hiq Hq Hsearch.
  unfold handle_inline_query, inline_query_text, answer. rewrite Hiq. run.
  rewrite (is_empty_false _ Hq). cbn.
  unfold search_jobs_for_inline, call_search_all_sites. run.
  rewrite Hsearch. reflexivity.
Qed.

(** C6: when the search settles with at least one job, the final answer
    is the summary entry followed by one entry per source with a job, in
    the order of the result map, cut to the first 50 entries; the summary
    stays first. The body of a source entry is its header and the first 10
    jobs of the source at most, numbered from 1; the body of the summary is
    its header and, for each source with a job, a sub-header, the first 5
    jobs of the source at most, numbered from 1, and a blank line. *)
Theorem inline_answer_with_jobs (update : Update) (iq : InlineQuery)
    (raw : RawResults) (w : World) :
  inline_query update = Some iq ->
  let q := str_strip (query iq) in
  q <> "" ->
  search_all_sites q DEFAULT_SITE_CHOICES = Return raw ->
  let res := site_results raw in
  0 < total_jobs res ->
  let sources := filter has_jobs res in
  let entries :=
    firstn 50 (summary_article q res :: map (site_article q) sources) in
  handle_inline_query update w
  = (Return tt,
     emit (AnswerInline (query_id iq) entries 300)
       (emit (SearchAllSites q DEFAULT_SITE_CHOICES)
          (emit (AnswerInline (query_id iq) [loading_article q] 1) w)))
  /\ nth_error entries 0 = Some (summary_article q res)
  /\ map Article.id entries
     = firstn 50 ("summary" :: map (fun e => "site_" ++ fst e) sources)
  /\ length entries <= 50
  /\ (forall e, In e sources <-> In e res /\ jobs (snd e) <> [])
  /\ (forall e,
        let shown := firstn 10 (jobs (snd e)) in
        message_text (Article.input_message_content (site_article q e))
        = Py.join Py.nl
            (("🏢 " ++ get_site_name (fst e) ++ " - " ++ q ++ Py.nl)
               :: map (fun '(idx, job) => Py.str_of_nat idx ++ ". " ++ job)
                      (combine (seq 1 (length shown)) shown))
        /\ length shown = Nat.min 10 (length (jobs (snd e))))
  /\ message_text (Article.input_message_content (summary_article q res))
     = Py.join Py.nl
         (("🔍 Job Search Results for: " ++ q ++ Py.nl)
            :: flat_map
                 (fun e =>
                    let shown := firstn 5 (jobs (snd e)) in
                    let sub_header :=
                      "🏢 " ++ get_site_name (fst e) ++ ": "
                        ++ Py.str_of_nat (length (jobs (snd e))) ++ " jobs ("
                        ++ Py.fmt_0f (timing_ms (snd e)) ++ "ms)" in
                    (sub_header
                       :: map (fun '(idx, job) =>
                                 ("  " ++ Py.str_of_nat idx ++ ". " ++ job)%string)
                              (combine (seq 1 (length shown)) shown)
                       ++ [""])%list)
                 sources)
  /\ (forall e : string * SiteData,
        length (firstn 5 (jobs (snd e))) = Nat.min 5 (length (jobs (snd e)))).
Proof.
  intros Hiq q Hq Hsearch res Htotal sources entries.
  split; [|split; [|split; [|split; [|split; [|split; [|split]]]]]].
  - rewrite (inline_query_settled update iq raw w Hiq Hq Hsearch).
    fold q res. unfold inline_results.
    destruct (Nat.eqb_spec (total_jobs res) 0) as [Hzero|_]; [|reflexivity].
    rewrite Hzero in Htotal. inversion Htotal.
  - reflexivity.
  - unfold entries. rewrite <- firstn_map. cbn [map]. rewrite map_map.
    reflexivity.
  - unfold entries. apply firstn_le_length.
  - intros e. unfold sources. rewrite filter_In, has_jobs_true. reflexivity.
  - intros e. split; [reflexivity | apply length_firstn].
  - unfold sources. cbn [summary_article article message_text
                          Article.input_message_content].
    unfold summary_text. rewrite summary_blocks_of_sources. reflexivity.
  - intros e. apply length_firstn.
Qed.

(** C7: when the search settles with no job at all, the final answer is
    the single entry whose id is [no_results]. *)
Theorem inline_answer_no_jobs (update : Update) (iq : InlineQuery)
    (raw : RawResults) (w : World) :
  inline_query update = Some iq ->
  let q := str_strip (query iq) in
  q <> "" ->
  search_all_sites q DEFAULT_SITE_CHOICES = Return raw ->
  total_jobs (site_results raw) = 0 ->
  handle_inline_query update w
  = (Return tt,
     emit (AnswerInline (query_id iq) [no_results_article q] 300)
       (emit (SearchAllSites q DEFAULT_SITE_CHOICES)
          (emit (AnswerInline (query_id iq) [loading_article q] 1) w)))
  /\ Article.id (no_results_article q) = "no_results".
Proof.
  intros Hiq q Hq Hsearch Hzero. split; [|reflexivity].
  rewrite (inline_query_settled update iq raw w Hiq Hq Hsearch).
  fold q. unfold inline_results. rewrite Hzero. reflexivity.
Qed.

(** C8: a query that is empty once trimmed is answered, from any world,
    with the one fixed usage entry and nothing else happens. *)
Theorem inline_empty_query_usage (update : Update) (iq : InlineQuery)
    (w : World) :
  inline_query update = Some iq ->
  str_strip (query iq) = "" ->
  handle_inline_query update w
  = (Return tt, emit (AnswerInline (query_id iq) [usage_article] 300) w)
  /\ Article.id usage_article = "usage".
Proof.
  intros Hiq Hq. split; [|reflexivity].
  unfold handle_inline_query, inline_query_text, answer. rewrite Hiq. run.
  rewrite Hq. reflexivity.
Qed.

(** * Further properties of the code *)

(** ** Splitting and joining the site list (line 42) *)

Lemma split_not_nil (c : ascii) (s : string) : Py.split c s <> [].
Proof.
  destruct s as [|c0 rest]; cbn; [discriminate|].
  destruct (Ascii.eqb c0 c); [discriminate|].
  destruct (Py.split c rest); discriminate.
Qed.

Lemma concat_cons_char (sep : string) (c0 : ascii) (piece : string)
    (pieces : list string) :
  String.concat sep (String c0 piece :: pieces)
  = String c0 (String.concat sep (piece :: pieces)).
Proof. destruct pieces; reflexivity. Qed.

Lemma join_split (c : ascii) (s : string) :
  Py.join (String c EmptyString) (Py.split c s) = s.
Proof.
  unfold Py.join. induction s as [|c0 rest IH]; [reflexivity|].
  cbn [Py.split]. destruct (Ascii.eqb_spec c0 c) as [->|Hneq].
  - pose proof (split_not_nil c rest) as Hnil.
    destruct (Py.split c rest) as [|piece pieces]; [contradiction|].
    cbn [String.concat]. cbn. f_equal. exact IH.
  - pose proof (split_not_nil c rest) as Hnil.
    destruct (Py.split c rest) as [|piece pieces]; [contradiction|].
    rewrite concat_cons_char. f_equal. exact IH.
Qed.

Lemma split_append (c : ascii) (s t : string) :
  ~ In c (list_ascii_of_string s) ->
  Py.split c (s ++ String c t) = s :: Py.split c t.
Proof.
  induction s as [|c0 rest IH]; intros Hfree.
  - cbn. rewrite Ascii.eqb_refl. reflexivity.
  - cbn in Hfree. cbn [append Py.split].
    destruct (Ascii.eqb_spec c0 c) as [->|Hneq].
    + exfalso. apply Hfree. now left.
    + rewrite IH; [reflexivity|]. intros Hin. apply Hfree. now right.
Qed.

Lemma split_free (c : ascii) (s : string) :
  ~ In c (list_ascii_of_string s) -> Py.split c s = [s].
Proof.
  induction s as [|c0 rest IH]; intros Hfree; [reflexivity|].
  cbn in Hfree. cbn [Py.split].
  destruct (Ascii.eqb_spec c0 c) as [->|Hneq].
  - exfalso. apply Hfree. now left.
  - rewrite IH; [reflexivity|]. intros Hin. apply Hfree. now right.
Qed.

Lemma split_join (c : ascii) (l : list string) :
  l <> [] ->
  (forall s, In s l -> ~ In c (list_ascii_of_string s)) ->
  Py.split c (Py.join (String c EmptyString) l) = l.
Proof.
  unfold Py.join. induction l as [|s rest IH]; intros Hnil Hfree;
    [contradiction|].
  destruct rest as [|s' rest'].
  - cbn. apply split_free. apply Hfree. now left.
  - change (String.concat (String c EmptyString) (s :: s' :: rest'))
      with (s ++ String c (String.concat (String c EmptyString) (s' :: rest'))).
    rewrite split_append by (apply Hfree; now left).
    f_equal. apply IH; [discriminate|].
    intros x Hin. apply Hfree. now right.
Qed.

Lemma get_absent {V : Type} (d : list (string * V)) (key : string) (default : V) :
  (forall v, ~ In (key, v) d) -> Py.get d key default = default.
Proof.
  induction d as [|[k v] rest IH]; intros Habsent; [reflexivity|].
  cbn. destruct (String.eqb_spec k key) as [->|Hneq].
  - exfalso. apply (Habsent v). now left.
  - apply IH. intros v' Hin. apply (Habsent v'). now right.
Qed.

Lemma valid_sites_all (sites : list string) :
  (forall s, In s sites -> In (str_lower (str_strip s)) AVAILABLE_SITES) ->
  valid_sites sites = map (fun s => str_lower (str_strip s)) sites.
Proof.
  intros Hall. unfold valid_sites. f_equal.
  induction sites as [|s rest IH]; [reflexivity|].
  cbn. rewrite (proj2 (mem_In _ _) (Hall s (or_introl eq_refl))).
  f_equal. apply IH. intros x Hin. apply Hall. now right.
Qed.

(** A request without a [sites] argument searches the default sites, as
    long as they are ids of the registry written without a comma, in
    lower case and without blanks around them. *)
Theorem requested_sites_default (request_args : list (string * string)) :
  (forall v, ~ In ("sites", v) request_args) ->
  DEFAULT_SITE_CHOICES <> [] ->
  (forall d, In d DEFAULT_SITE_CHOICES ->
             ~ In ","%char (list_ascii_of_string d)
             /\ str_lower (str_strip d) = d
             /\ In d AVAILABLE_SITES) ->
  requested_sites request_args = DEFAULT_SITE_CHOICES.
Proof.
  intros Habsent Hnil Hgood. unfold requested_sites.
  rewrite get_absent by assumption.
  rewrite split_join; [|assumption|intros d Hd; apply (Hgood d Hd)].
  rewrite valid_sites_all.
  - rewrite (map_ext_in _ (fun d => d)), map_id.
    + destruct DEFAULT_SITE_CHOICES; [contradiction | reflexivity].
    + intros d Hd. apply (Hgood d Hd).
  - intros d Hd. destruct (Hgood d Hd) as [_ [Hnorm Hin]]. now rewrite Hnorm.
Qed.

(** When every requested id is in the registry once trimmed and lowercased,
    the search gets all of them in the order of the request, repeated ids
    included. *)
Theorem requested_sites_all_valid (request_args : list (string * string)) :
  let asked :=
    Py.split ","%char
      (Py.get request_args "sites" (Py.join "," DEFAULT_SITE_CHOICES)) in
  (forall s, In s asked -> In (str_lower (str_strip s)) AVAILABLE_SITES) ->
  requested_sites request_args = map (fun s => str_lower (str_strip s)) asked.
Proof.
  intros asked Hall. unfold requested_sites. fold asked.
  rewrite (valid_sites_all asked Hall).
  pose proof (split_not_nil ","%char
                (Py.get request_args "sites" (Py.join "," DEFAULT_SITE_CHOICES)))
    as Hnil.
  fold asked in Hnil. destruct asked; [contradiction | reflexivity].
Qed.

(** ** The formatted results (lines 49 to 57 and 71 to 79) *)

(** The formatted result map holds exactly the entries of the raw dict that
    are dicts under a key other than ['global_time'], with an absent
    ['jobs'] read as the empty list and an absent ['timing'] as 0. *)
Theorem site_results_spec (raw : RawResults) (name : string) (d : SiteData) :
  In (name, d) (site_results raw)
  <-> exists j t,
        In (name, RawDict j t) raw
        /\ name <> "global_time"
        /\ d = mkSiteData (match j with Some l => l | None => [] end)
                          (match t with Some n => n | None => 0%Z end).
Proof.
  induction raw as [|[k v] rest IH].
  - cbn. split; [contradiction | intros [j [t [[] _]]]].
  - cbn [site_results]. destruct v as [n|j t].
    + rewrite IH. split.
      * intros [j [t [Hin Hrest]]]. exists j, t. split; [now right | exact Hrest].
      * intros [j [t [[Heq|Hin] Hrest]]]; [discriminate|].
        exists j, t. split; assumption.
    + destruct (String.eqb_spec k "global_time") as [->|Hneq].
      * rewrite IH. split.
        -- intros [j' [t' [Hin Hrest]]]. exists j', t'.
           split; [now right | exact Hrest].
        -- intros [j' [t' [[Heq|Hin] [Hname Hd]]]].
           ++ injection Heq as Hk _ _. now symmetry in Hk.
           ++ exists j', t'. repeat split; assumption.
      * cbn [In]. rewrite IH. split.
        -- intros [Heq|[j' [t' [Hin Hrest]]]].
           ++ injection Heq as Hk Hd. subst name. exists j, t.
              repeat split; [now left | assumption | now symmetry].
           ++ exists j', t'. split; [now right | exact Hrest].
        -- intros [j' [t' [[Heq|Hin] [Hname Hd]]]].
           ++ left. injection Heq as Hk Hj Ht. subst. reflexivity.
           ++ right. exists j', t'. repeat split; assumption.
Qed.

Lemma site_results_key (raw : RawResults) (name : string) :
  In name (map fst (site_results raw)) ->
  In name (map fst raw) /\ name <> "global_time".
Proof.
  induction raw as [|[k v] rest IH]; [intros []|].
  cbn [site_results]. destruct v as [n|j t].
  - intros Hin. destruct (IH Hin) as [Hrest Hneq]. split; [now right | exact Hneq].
  - destruct (String.eqb_spec k "global_time") as [->|Hk].
    + intros Hin. destruct (IH Hin) as [Hrest Hneq].
      split; [now right | exact Hneq].
    + cbn [map fst In]. intros [Heq|Hin].
      * subst name. split; [now left | exact Hk].
      * destruct (IH Hin) as [Hrest Hneq]. split; [now right | exact Hneq].
Qed.

(** The keys of the formatted result map stay distinct when those of the raw
    dict are, and ['global_time'] is never one of them. *)
Theorem site_results_keys (raw : RawResults) :
  ~ In "global_time" (map fst (site_results raw))
  /\ (NoDup (map fst raw) -> NoDup (map fst (site_results raw))).
Proof.
  split.
  - intros Hin. apply site_results_key in Hin. destruct Hin as [_ Hneq].
    now apply Hneq.
  - induction raw as [|[k v] rest IH]; intros Hnodup; [constructor|].
    cbn [map fst] in Hnodup. inversion Hnodup as [|x l Hnotin Hrest]; subst.
    cbn [site_results]. destruct v as [n|j t]; [now apply IH|].
    destruct (String.eqb k "global_time"); [now apply IH|].
    cbn [map fst]. constructor; [|now apply IH].
    intros Hin. apply site_results_key in Hin. now apply Hnotin.
Qed.

(** ** Counting and rendering jobs *)

Lemma combine_seq_nth {A : Type} (l : list A) (start k : nat) :
  nth_error (combine (seq start (length l)) l) k
  = option_map (fun x => (start + k, x)) (nth_error l k).
Proof.
  revert start k. induction l as [|x rest IH]; intros start k.
  - destruct k; reflexivity.
  - destruct k as [|k]; cbn.
    + now rewrite Nat.add_0_r.
    + rewrite IH. now rewrite Nat.add_succ_r.
Qed.

(** Job lines are numbered from 1 in the order of the jobs: line [k]
    (counting from 0) is the number [k + 1], a dot, a blank and job [k]. *)
Theorem numbered_nth (prefix : string) (items : list string) (k : nat) :
  nth_error (numbered prefix items) k
  = option_map (fun job => prefix ++ Py.str_of_nat (S k) ++ ". " ++ job)
               (nth_error items k).
Proof.
  unfold numbered, Py.enumerate1. rewrite nth_error_map, combine_seq_nth.
  destruct (nth_error items k); reflexivity.
Qed.

Lemma numbered_firstn_nth (prefix : string) (n : nat) (items : list string)
    (k : nat) :
  nth_error (numbered prefix (firstn n items)) k
  = if (k <? n)%nat
    then option_map (fun job => prefix ++ Py.str_of_nat (S k) ++ ". " ++ job)
                    (nth_error items k)
    else None.
Proof.
  unfold numbered, Py.enumerate1. rewrite nth_error_map, combine_seq_nth.
  rewrite nth_error_firstn. destruct (k <? n)%nat; [|reflexivity].
  destruct (nth_error items k); reflexivity.
Qed.

(** A source adds to the direct reply its sub-header with the rendered
    latency, then its first three jobs at most, numbered from 1 in the
    order of the jobs, then a blank line. *)
Theorem search_block_lines (site : string) (data : SiteData) :
  exists lines,
    search_block site data
    = ((Py.nl ++ "🏢 " ++ get_site_name site
          ++ " (" ++ Py.fmt_0f (timing_ms data) ++ " ms):")%string
         :: lines ++ [""])%list
    /\ length lines = Nat.min 3 (length (jobs data))
    /\ forall k,
         nth_error lines k
         = if (k <? 3)%nat
           then option_map (fun job => Py.str_of_nat (S k) ++ ". " ++ job)
                           (nth_error (jobs data) k)
           else None.
Proof.
  exists (numbered "" (firstn 3 (jobs data))). split; [reflexivity|]. split.
  - rewrite length_numbered. apply length_firstn.
  - intros k. apply numbered_firstn_nth.
Qed.

(** The total is zero exactly when no source has a job. *)
Theorem total_jobs_zero_iff (res : list (string * SiteData)) :
  total_jobs res = 0 <-> filter has_jobs res = [].
Proof.
  unfold total_jobs. induction res as [|[site data] rest IH];
    [split; reflexivity|].
  cbn [map list_sum filter]. unfold has_jobs at 1. cbn [snd].
  destruct (jobs data) as [|job more].
  - exact IH.
  - split; intros H; discriminate.
Qed.

Lemma no_source_with_jobs (res : list (string * SiteData)) :
  filter has_jobs res = [] -> total_jobs res = 0.
Proof.
  unfold total_jobs. induction res as [|[site data] rest IH]; [reflexivity|].
  cbn [map list_sum filter]. unfold has_jobs at 1. cbn [snd].
  destruct (jobs data); [exact IH | discriminate].
Qed.

Lemma inline_results_length (q : string) (res : list (string * SiteData)) :
  length (inline_results q res)
  = if (total_jobs res =? 0)%nat then 1
    else S (length (filter has_jobs res)).
Proof.
  unfold inline_results. destruct (total_jobs res =? 0)%nat; [reflexivity|].
  cbn [length]. now rewrite length_map.
Qed.

(** Every settled inline answer has between 1 and 50 entries: one when
    there is no job, otherwise the summary and the sources with jobs, cut at
    50, which makes at least two. *)
Theorem inline_answer_size (q : string) (res : list (string * SiteData)) :
  let entries := firstn 50 (inline_results q res) in
  1 <= length entries <= 50
  /\ (total_jobs res = 0 -> length entries = 1)
  /\ (0 < total_jobs res ->
      length entries = Nat.min 50 (1 + length (filter has_jobs res))
      /\ 2 <= length entries).
Proof.
  intros entries. unfold entries. clear entries.
  rewrite length_firstn, inline_results_length.
  destruct (Nat.eqb_spec (total_jobs res) 0) as [Hzero|Hpos].
  - cbn. repeat split; try lia.
  - assert (Hsome : 1 <= length (filter has_jobs res)).
    { destruct (filter has_jobs res) eqn:Hf; [|cbn; lia].
      apply no_source_with_jobs in Hf. contradiction. }
    repeat split; lia.
Qed.

(** ** Entry ids of an inline answer *)

Lemma firstn_incl {A : Type} (n : nat) (l : list A) (x : A) :
  In x (firstn n l) -> In x l.
Proof.
  intros Hin. rewrite <- (firstn_skipn n l). apply in_or_app. now left.
Qed.

Lemma NoDup_firstn {A : Type} (n : nat) (l : list A) :
  NoDup l -> NoDup (firstn n l).
Proof.
  revert n. induction l as [|x rest IH]; intros n Hnodup.
  - now rewrite firstn_nil.
  - destruct n as [|n]; [constructor|]. cbn.
    inversion Hnodup as [|y l' Hnotin Hrest]; subst.
    constructor; [|now apply IH].
    intros Hin. apply Hnotin. eapply firstn_incl. exact Hin.
Qed.

Lemma NoDup_keys_filter {A : Type} (keep : string * A -> bool)
    (l : list (string * A)) :
  NoDup (map fst l) -> NoDup (map fst (filter keep l)).
Proof.
  induction l as [|x rest IH]; intros Hnodup; [constructor|].
  cbn [map] in Hnodup. inversion Hnodup as [|y l' Hnotin Hrest]; subst.
  cbn [filter]. destruct (keep x); [|now apply IH].
  cbn [map]. constructor; [|now apply IH].
  intros Hin. apply Hnotin. apply in_map_iff in Hin.
  destruct Hin as [e [He Hin]]. apply filter_In in Hin.
  apply in_map_iff. exists e. split; [assumption | apply Hin].
Qed.

(** The entries of a settled answer carry pairwise different ids when the
    sources of the result map are distinct, as the keys of a dict are. *)
Theorem inline_answer_ids_distinct (q : string)
    (res : list (string * SiteData)) :
  NoDup (map fst res) ->
  NoDup (map Article.id (firstn 50 (inline_results q res))).
Proof.
  intros Hnodup. rewrite <- firstn_map. apply NoDup_firstn.
  unfold inline_results. destruct (total_jobs res =? 0)%nat.
  - cbn. constructor; [intros [] | constructor].
  - cbn [map]. rewrite map_map.
    change (map (fun e => Article.id (site_article q e)) (filter has_jobs res))
      with (map (fun e => "site_" ++ fst e) (filter has_jobs res)).
    rewrite <- (map_map fst (fun name => "site_" ++ name)).
    constructor.
    + intros Hin. apply in_map_iff in Hin. destruct Hin as [name [Heq _]].
      cbn in Heq. discriminate.
    + apply NoDup_map_NoDup_ForallPairs.
      * intros a b _ _ Heq. cbn in Heq. now injection Heq.
      * now apply NoDup_keys_filter.
Qed.

(** ** The inline handler on its other paths *)

(** When the search service raises, the user gets the placeholder and then
    the single [error] entry carrying the exception text, cached for 60
    seconds; the handler returns normally. *)
Theorem inline_query_service_error (update : Update) (iq : InlineQuery)
    (e : Py.exn) (w : World) :
  inline_query update = Some iq ->
  let q := str_strip (query iq) in
  q <> "" ->
  search_all_sites q DEFAULT_SITE_CHOICES = Raise e ->
  handle_inline_query update w
  = (Return tt,
     emit (AnswerInline (query_id iq) [error_article q (Py.str e)] 60)
       (emit (SearchAllSites q DEFAULT_SITE_CHOICES)
          (emit (AnswerInline (query_id iq) [loading_article q] 1) w))).
Proof.
  intros Hiq q Hq Hsearch.
  unfold handle_inline_query, inline_query_text, answer. rewrite Hiq. run.
  fold q. rewrite (is_empty_false _ Hq). cbn.
  unfold search_jobs_for_inline, call_search_all_sites. run.
  rewrite Hsearch. reflexivity.
Qed.

(** Whatever the query and whatever the search service does, an update
    that carries an inline query is answered and the handler returns: its
    last send is an answer to that query with 1 to 50 entries and a cache
    time of 300 or 60 seconds, and the world changes by appended events
    only. *)
Theorem inline_query_always_answered (update : Update) (iq : InlineQuery)
    (w : World) :
  inline_query update = Some iq ->
  exists earlier entries cache_time,
    handle_inline_query update w
    = (Return tt,
       mkWorld (telegram_app w) (executor_queue w) (processed w)
         (trace w ++ earlier
            ++ [AnswerInline (query_id iq) entries cache_time]))
    /\ 1 <= length entries <= 50
    /\ (cache_time = 300 \/ cache_time = 60)%Z.
Proof.
  intros Hiq.
  unfold handle_inline_query, inline_query_text, answer. rewrite Hiq.
  unfold def, try_except, bind, ret, raise, call, do, assign_user_id,
    read_user_id; cbn -[firstn inline_results].
  destruct (Py.is_empty (str_strip (query iq))) eqn:Hempty.
  - exists [], [usage_article], 300%Z. cbn.
    split; [reflexivity | split; [lia | now left]].
  - cbn -[firstn inline_results].
    unfold search_jobs_for_inline, call_search_all_sites.
    unfold def, try_except, bind, ret; cbn -[firstn inline_results].
    destruct (search_all_sites (str_strip (query iq)) DEFAULT_SITE_CHOICES)
      as [raw|e]; cbn -[firstn inline_results].
    + eexists [_; _], _, 300%Z. unfold emit. cbn -[firstn inline_results].
      rewrite <- !app_assoc. cbn -[firstn inline_results].
      split; [reflexivity|].
      split; [|now left]. split; [|apply firstn_le_length].
      rewrite length_firstn, inline_results_length.
      destruct (total_jobs (site_results raw) =? 0)%nat; cbn; lia.
    + eexists [_; _], [_], 60%Z. unfold emit. cbn.
      rewrite <- !app_assoc. cbn.
      split; [reflexivity | split; [lia | now right]].
Qed.

(** ** The [/search] command on its other paths *)

(** Inside a request context and with a search that returns, a keyword is
    answered by one search over the requested sites and one reply, the
    rendered results, sent with link previews off. *)
Theorem search_command_reply (request : Request) (update : Update)
    (m : Message) (uid : Z) (context_args : list string) (raw : RawResults)
    (w : World) :
  message update = Some m ->
  effective_user update = Some uid ->
  let keyword := Py.join " " context_args in
  keyword <> "" ->
  search_all_sites keyword (requested_sites (args request)) = Return raw ->
  handle_search (Some request) update context_args w
  = (Return tt,
     emit (ReplyText (chat_id m) (search_message (site_results raw)) (Some true))
       (emit (SearchAllSites keyword (requested_sites (args request))) w)).
Proof.
  intros Hmsg Huser keyword Hkw Hsearch. unfold handle_search.
  unfold def, try_except, bind, ret, call; cbn -[search_message]. fold keyword.
  rewrite (is_empty_false _ Hkw).
  unfold effective_user_id, reply_text. rewrite Hmsg, Huser.
  unfold search_jobs, call_search_all_sites, def, try_except, bind, ret, do;
    cbn -[search_message].
  rewrite Hsearch. reflexivity.
Qed.

(** Inside a request context, an exception of the search service reaches
    the user as one reply with the exception text, and the handler returns. *)
Theorem search_command_service_error (request : Request) (update : Update)
    (m : Message) (uid : Z) (context_args : list string) (e : Py.exn)
    (w : World) :
  message update = Some m ->
  effective_user update = Some uid ->
  let keyword := Py.join " " context_args in
  keyword <> "" ->
  search_all_sites keyword (requested_sites (args request)) = Raise e ->
  handle_search (Some request) update context_args w
  = (Return tt,
     emit (ReplyText (chat_id m) ("🚨 Error: " ++ Py.str e) None)
       (emit (SearchAllSites keyword (requested_sites (args request))) w)).
Proof.
  intros Hmsg Huser keyword Hkw Hsearch. unfold handle_search. run.
  fold keyword. rewrite (is_empty_false _ Hkw).
  unfold effective_user_id, reply_text. rewrite Hmsg, Huser.
  unfold search_jobs, call_search_all_sites. run.
  rewrite Hsearch. reflexivity.
Qed.

(** The reply is the "No jobs found" line exactly when the result map has
    no source at all: a source without jobs still gets its sub-header. *)
Theorem search_message_no_jobs_iff (res : list (string * SiteData)) :
  search_message res = "No jobs found" <-> res = [].
Proof.
  split.
  - destruct res as [|[site data] rest]; [reflexivity|].
    unfold search_message, search_response. cbn [flat_map].
    unfold search_block at 1. cbn [app length Nat.ltb Nat.leb].
    unfold Py.join. cbn [String.concat]. cbn [append]. discriminate.
  - intros ->. reflexivity.
Qed.

(** For an update without a user the handler raises [AttributeError] on
    every path, its [except] branch included: at most the usage line has
    been sent, and no search is made. *)
Theorem search_command_without_user (request : option Request)
    (update : Update) (context_args : list string) (w : World) :
  effective_user update = None ->
  fst (handle_search request update context_args w)
  = Raise (Py.AttributeError "id")
  /\ (snd (handle_search request update context_args w) = w
      \/ exists m,
           message update = Some m
           /\ Py.join " " context_args = ""
           /\ snd (handle_search request update context_args w)
              = emit (ReplyText (chat_id m) usage_text None) w).
Proof.
  intros Huser. unfold handle_search. run.
  unfold effective_user_id, reply_text. rewrite Huser.
  destruct (Py.join " " context_args) eqn:Hkw; cbn.
  - destruct (message update) as [m|] eqn:Hmsg; cbn.
    + split; [reflexivity|]. right. exists m. repeat split.
    + split; [reflexivity | now left].
  - split; [reflexivity | now left].
Qed.

(** For an update without a message the handler sends nothing and raises
    [AttributeError], from its [except] branch as well. *)
Theorem search_command_without_message (request : option Request)
    (update : Update) (uid : Z) (context_args : list string) (w : World) :
  message update = None ->
  effective_user update = Some uid ->
  fst (handle_search request update context_args w)
  = Raise (Py.AttributeError "reply_text")
  /\ forall chat msg no_preview,
       In (ReplyText chat msg no_preview)
          (trace (snd (handle_search request update context_args w))) ->
       In (ReplyText chat msg no_preview) (trace w).
Proof.
  intros Hmsg Huser. unfold handle_search. run.
  unfold effective_user_id, reply_text. rewrite Hmsg, Huser.
  destruct (Py.is_empty (Py.join " " context_args)); cbn -[search_message];
    [split; [reflexivity | auto]|].
  unfold search_jobs, call_search_all_sites, request_args. run.
  destruct request as [r|]; cbn -[search_message];
    [|split; [reflexivity | auto]].
  destruct (search_all_sites _ _); cbn -[search_message];
    (split; [reflexivity|]); intros chat msg no_preview Hin;
    apply in_app_or in Hin; destruct Hin as [Hin|[Hin|[]]];
    (assumption || discriminate).
Qed.

(** ** What the route leaves alone *)

(** The route sends nothing and marks nothing processed. It reports
    success exactly when it has queued the update of the request;
    otherwise the world is as before. *)
Theorem webhook_frame (request : Request) (w : World) :
  let r := fst (telegram_webhook request w) in
  let w' := snd (telegram_webhook request w) in
  telegram_app w' = telegram_app w
  /\ processed w' = processed w
  /\ trace w' = trace w
  /\ ((r = Return jsonify_success
       /\ exists update, body request = GoodBody update
                         /\ w' = enqueue update w)
      \/ (r <> Return jsonify_success /\ w' = w)).
Proof.
  cbv zeta. unfold telegram_webhook, def, de_json, executor_submit.
  destruct (telegram_app w) as [app|] eqn:Happ.
  - destruct (body request) as [e|update] eqn:Hbody; run.
    + split; [assumption | split; [reflexivity | split; [reflexivity|]]].
      right. split; [discriminate | reflexivity].
    + split; [assumption | split; [reflexivity | split; [reflexivity|]]].
      left. split; [reflexivity|].
      exists update. split; reflexivity.
  - cbn. split; [assumption | split; [reflexivity | split; [reflexivity|]]].
    right. split; [discriminate | reflexivity].
Qed.

(** ** The sites of an inline search *)

(** [search_jobs_for_inline] searches the sites it is given as they are,
    without checking them against the registry, and an empty list is
    searched as such: only a missing [sites] is replaced by the default
    set. Whether the service returns or raises, this one call is all that
    happens. *)
Theorem inline_search_sites (keyword : string) (sites : list string)
    (w : World) :
  snd (search_jobs_for_inline keyword (Some sites) w)
  = emit (SearchAllSites keyword sites) w
  /\ snd (search_jobs_for_inline keyword None w)
     = emit (SearchAllSites keyword DEFAULT_SITE_CHOICES) w.
Proof.
  unfold search_jobs_for_inline, call_search_all_sites. run.
  split.
  - destruct (search_all_sites keyword sites); reflexivity.
  - destruct (search_all_sites keyword DEFAULT_SITE_CHOICES); reflexivity.
Qed.

(** ** Two more renderings *)

(** The summary of an inline answer leaves out the sources without jobs:
    it is the summary of the sources that have some. *)
Theorem summary_skips_empty_sources (q : string)
    (res : list (string * SiteData)) :
  summary_text q res = summary_text q (filter has_jobs res).
Proof.
  unfold summary_text. f_equal.
  induction res as [|[site data] rest IH]; [reflexivity|].
  cbn [flat_map filter]. destruct (has_jobs (site, data)) eqn:Hjobs.
  - cbn [flat_map]. now rewrite IH.
  - unfold summary_block at 1. rewrite Hjobs. exact IH.
Qed.

(** The keyword of [/search] is empty, and the usage line is sent, exactly
    when the command has no argument or a single empty one. *)
Theorem keyword_empty_iff (context_args : list string) :
  Py.join " " context_args = ""
  <-> context_args = [] \/ context_args = [""].
Proof.
  unfold Py.join. destruct context_args as [|a [|b rest]].
  - split; [now left | reflexivity].
  - cbn. split.
    + intros ->. now right.
    + intros [H|H]; [discriminate | now injection H].
  - cbn [String.concat]. split.
    + destruct a; cbn; discriminate.
    + intros [H|H]; discriminate.
Qed.

End Server.

(** ** Runs on the demo deployment *)

Lemma webhook_uninitialized_witness :
  telegram_webhook Demo.post Demo.uninitialized
  = (Return (mkResponse [("status", "error");
                         ("message", "Telegram bot not initialized")] 500),
     Demo.uninitialized).
Proof. apply (webhook_uninitialized Demo.post Demo.uninitialized). reflexivity. Defined.

Lemma search_wrappers_never_raise_witness :
  fst (search_jobs Py.ascii_strip Py.ascii_lower Demo.AVAILABLE_SITES
         Demo.DEFAULT_SITE_CHOICES Demo.search_down (Some Demo.post) "python"
         Demo.running)
  = Return (ErrorDict "network unreachable").
Proof.
  apply (proj1 (proj2 (proj2
           (search_wrappers_never_raise Py.ascii_strip Py.ascii_lower
              Demo.AVAILABLE_SITES Demo.DEFAULT_SITE_CHOICES Demo.search_down)))
           Demo.post "python" (Py.mkExn "ConnectionError" "network unreachable")
           Demo.running).
  reflexivity.
Defined.

Lemma search_jobs_sites_witness :
  snd (search_jobs Py.ascii_strip Py.ascii_lower Demo.AVAILABLE_SITES
         Demo.DEFAULT_SITE_CHOICES Demo.search_four (Some Demo.post_sites)
         "python" Demo.running)
  = emit (SearchAllSites "python" ["hh"]) Demo.running.
Proof.
  apply (search_jobs_sites Py.ascii_strip Py.ascii_lower Demo.AVAILABLE_SITES
           Demo.DEFAULT_SITE_CHOICES Demo.search_four Demo.post_sites "python"
           Demo.running).
  discriminate.
Defined.

Lemma search_command_outside_request_witness :
  handle_search Py.ascii_strip Py.ascii_lower Demo.AVAILABLE_SITES
    Demo.DEFAULT_SITE_CHOICES Demo.get_site_name Demo.search_four None
    Demo.command ["python"] Demo.running
  = (Return tt,
     emit (ReplyText 42 "🚨 Error: Working outside of request context." None)
       Demo.running).
Proof.
  apply (search_command_outside_request Py.ascii_strip Py.ascii_lower
           Demo.AVAILABLE_SITES Demo.DEFAULT_SITE_CHOICES Demo.get_site_name
           Demo.search_four Demo.command (mkMessage 42 "/search python") 7
           ["python"] Demo.running);
    [reflexivity | reflexivity | discriminate].
Defined.

(** C1, as the design document words it, fails: the route reports success
    for an update that it has only handed to the pool. *)
Lemma webhook_success_before_processing : ~ success_means_processed.
Proof.
  intros Hclaim.
  apply (Hclaim Demo.post Demo.command Demo.running jsonify_success
           (enqueue Demo.command Demo.running));
    [discriminate | reflexivity | reflexivity | reflexivity].
Qed.

Lemma webhook_queues_and_returns_witness :
  telegram_webhook Demo.post Demo.running
  = (Return jsonify_success, enqueue Demo.command Demo.running).
Proof.
  apply (webhook_queues_and_returns Demo.post Demo.command Demo.running);
    [discriminate | reflexivity].
Defined.

Lemma except_reads_unbound_user_id_witness :
  telegram_webhook Demo.malformed_post Demo.running
  = (Raise (Py.UnboundLocalError "user_id"), Demo.running).
Proof.
  apply (proj1 (except_reads_unbound_user_id Py.ascii_strip
                  Demo.DEFAULT_SITE_CHOICES Demo.get_site_name Demo.search_four)
           Demo.malformed_post (Py.mkExn "BadRequest" "400 Bad Request")
           Demo.running);
    [discriminate | reflexivity].
Defined.

Lemma inline_answer_with_jobs_witness :
  exists entries,
    snd (handle_inline_query Py.ascii_strip Demo.DEFAULT_SITE_CHOICES
           Demo.get_site_name Demo.search_four (Demo.inline " py ")
           Demo.running)
    = emit (AnswerInline "q1" entries 300)
        (emit (SearchAllSites "py" ["hh"])
           (emit (AnswerInline "q1" [loading_article "py"] 1) Demo.running))
    /\ map Article.id entries = ["summary"; "site_hh"].
Proof.
  destruct (inline_answer_with_jobs Py.ascii_strip Demo.DEFAULT_SITE_CHOICES
              Demo.get_site_name Demo.search_four (Demo.inline " py ")
              (mkInlineQuery "q1" " py ")
              [("hh", RawDict (Some ["a"; "b"; "c"; "d"]) (Some 120%Z));
               ("geekjob", RawDict None None);
               ("global_time", RawNumber 130)]
              Demo.running)
    as [Hrun [_ [Hids _]]];
    [reflexivity | discriminate | reflexivity | cbn; lia |].
  eexists. split; [rewrite Hrun; reflexivity | exact Hids].
Defined.

Lemma inline_answer_no_jobs_witness :
  handle_inline_query Py.ascii_strip Demo.DEFAULT_SITE_CHOICES
    Demo.get_site_name Demo.search_nothing (Demo.inline "py") Demo.running
  = (Return tt,
     emit (AnswerInline "q1" [no_results_article "py"] 300)
       (emit (SearchAllSites "py" ["hh"])
          (emit (AnswerInline "q1" [loading_article "py"] 1) Demo.running))).
Proof.
  apply (inline_answer_no_jobs Py.ascii_strip Demo.DEFAULT_SITE_CHOICES
           Demo.get_site_name Demo.search_nothing (Demo.inline "py")
           (mkInlineQuery "q1" "py")
           [("hh", RawDict (Some []) (Some 5%Z)); ("global_time", RawNumber 5)]
           Demo.running);
    [reflexivity | discriminate | reflexivity | reflexivity].
Defined.

Lemma inline_empty_query_usage_witness :
  handle_inline_query Py.ascii_strip Demo.DEFAULT_SITE_CHOICES
    Demo.get_site_name Demo.search_four (Demo.inline "   ") Demo.running
  = (Return tt, emit (AnswerInline "q1" [usage_article] 300) Demo.running).
Proof.
  apply (inline_empty_query_usage Py.ascii_strip Demo.DEFAULT_SITE_CHOICES
           Demo.get_site_name Demo.search_four (Demo.inline "   ")
           (mkInlineQuery "q1" "   ") Demo.running);
    [reflexivity | reflexivity].
Defined.

(** ** Runs of the further properties *)

Lemma search_command_usage_witness :
  snd (handle_search Py.ascii_strip Py.ascii_lower Demo.AVAILABLE_SITES
         Demo.DEFAULT_SITE_CHOICES Demo.get_site_name Demo.search_four
         (Some Demo.post) Demo.command [] Demo.running)
  = emit (ReplyText 42 usage_text None) Demo.running.
Proof.
  apply (search_command_usage Py.ascii_strip Py.ascii_lower
           Demo.AVAILABLE_SITES Demo.DEFAULT_SITE_CHOICES Demo.get_site_name
           Demo.search_four (Some Demo.post) Demo.command
           (mkMessage 42 "/search python") [] Demo.running);
    reflexivity.
Defined.

Lemma requested_sites_default_witness :
  requested_sites Py.ascii_strip Py.ascii_lower Demo.AVAILABLE_SITES
    Demo.DEFAULT_SITE_CHOICES [("page", "2")]
  = Demo.DEFAULT_SITE_CHOICES.
Proof.
  apply (requested_sites_default Py.ascii_strip Py.ascii_lower
           Demo.AVAILABLE_SITES Demo.DEFAULT_SITE_CHOICES [("page", "2")]).
  - intros v [H|[]]. discriminate.
  - discriminate.
  - intros d [<-|[]]. split; [|split; [reflexivity | now left]].
    cbn. intros [H|[H|[]]]; discriminate.
Defined.

Lemma requested_sites_all_valid_witness :
  requested_sites Py.ascii_strip Py.ascii_lower Demo.AVAILABLE_SITES
    Demo.DEFAULT_SITE_CHOICES [("sites", "hh, GeekJob ,HH")]
  = ["hh"; "geekjob"; "hh"].
Proof.
  apply (requested_sites_all_valid Py.ascii_strip Py.ascii_lower
           Demo.AVAILABLE_SITES Demo.DEFAULT_SITE_CHOICES
           [("sites", "hh, GeekJob ,HH")]).
  cbn. intros s [<-|[<-|[<-|[]]]]; cbn; auto.
Defined.

Lemma site_results_spec_witness :
  In ("geekjob", mkSiteData [] 0)
     (site_results [("hh", RawDict (Some ["a"]) (Some 120%Z));
                    ("geekjob", RawDict None None);
                    ("global_time", RawNumber 130)]).
Proof.
  apply (proj2 (site_results_spec _ "geekjob" (mkSiteData [] 0))).
  exists None, None. split; [right; now left | split; [discriminate | reflexivity]].
Defined.

Lemma site_results_keys_witness :
  NoDup (map fst (site_results [("hh", RawDict (Some ["a"]) (Some 120%Z));
                                ("global_time", RawDict (Some ["x"]) None);
                                ("geekjob", RawDict None None)])).
Proof.
  apply (proj2 (site_results_keys _)). cbn.
  repeat constructor; cbn; intros H;
    repeat (destruct H as [H|H]; [discriminate|]); exact H.
Defined.

Lemma total_jobs_zero_iff_witness :
  total_jobs [("hh", mkSiteData [] 5); ("geekjob", mkSiteData [] 7)] = 0.
Proof.
  apply (proj2 (total_jobs_zero_iff _)). reflexivity.
Defined.

Lemma inline_answer_size_witness :
  length (firstn 50 (inline_results Demo.get_site_name "py"
                       [("hh", mkSiteData ["a"; "b"] 5);
                        ("geekjob", mkSiteData [] 7)]))
  = Nat.min 50 (1 + 1).
Proof.
  apply (proj2 (proj2 (inline_answer_size Demo.get_site_name "py"
                         [("hh", mkSiteData ["a"; "b"] 5);
                          ("geekjob", mkSiteData [] 7)]))).
  cbn. lia.
Defined.

Lemma inline_answer_ids_distinct_witness :
  NoDup (map Article.id
           (firstn 50 (inline_results Demo.get_site_name "py"
                         [("hh", mkSiteData ["a"] 5);
                          ("geekjob", mkSiteData ["b"] 7)]))).
Proof.
  apply (inline_answer_ids_distinct Demo.get_site_name "py"). cbn.
  repeat constructor; cbn; intros H;
    repeat (destruct H as [H|H]; [discriminate|]); exact H.
Defined.

Lemma inline_query_service_error_witness :
  handle_inline_query Py.ascii_strip Demo.DEFAULT_SITE_CHOICES
    Demo.get_site_name Demo.search_down (Demo.inline "py") Demo.running
  = (Return tt,
     emit (AnswerInline "q1" [error_article "py" "network unreachable"] 60)
       (emit (SearchAllSites "py" ["hh"])
          (emit (AnswerInline "q1" [loading_article "py"] 1) Demo.running))).
Proof.
  apply (inline_query_service_error Py.ascii_strip Demo.DEFAULT_SITE_CHOICES
           Demo.get_site_name Demo.search_down (Demo.inline "py")
           (mkInlineQuery "q1" "py")
           (Py.mkExn "ConnectionError" "network unreachable") Demo.running);
    [reflexivity | discriminate | reflexivity].
Defined.

Lemma inline_query_always_answered_witness :
  exists earlier entries cache_time,
    handle_inline_query Py.ascii_strip Demo.DEFAULT_SITE_CHOICES
      Demo.get_site_name Demo.search_four (Demo.inline "py") Demo.running
    = (Return tt,
       mkWorld (Some (mkApplication "token")) [] []
         (earlier ++ [AnswerInline "q1" entries cache_time]))
    /\ 1 <= length entries <= 50
    /\ (cache_time = 300 \/ cache_time = 60)%Z.
Proof.
  apply (inline_query_always_answered Py.ascii_strip
           Demo.DEFAULT_SITE_CHOICES Demo.get_site_name Demo.search_four
           (Demo.inline "py") (mkInlineQuery "q1" "py") Demo.running).
  reflexivity.
Defined.

Lemma search_command_reply_witness :
  handle_search Py.ascii_strip Py.ascii_lower Demo.AVAILABLE_SITES
    Demo.DEFAULT_SITE_CHOICES Demo.get_site_name Demo.search_four
    (Some Demo.post_sites) Demo.command ["python"; "dev"] Demo.running
  = (Return tt,
     emit (ReplyText 42
             (search_message Demo.get_site_name
                [("hh", mkSiteData ["a"; "b"; "c"; "d"] 120);
                 ("geekjob", mkSiteData [] 0)])
             (Some true))
       (emit (SearchAllSites "python dev" ["hh"]) Demo.running)).
Proof.
  apply (search_command_reply Py.ascii_strip Py.ascii_lower
           Demo.AVAILABLE_SITES Demo.DEFAULT_SITE_CHOICES Demo.get_site_name
           Demo.search_four Demo.post_sites Demo.command
           (mkMessage 42 "/search python") 7 ["python"; "dev"]
           [("hh", RawDict (Some ["a"; "b"; "c"; "d"]) (Some 120%Z));
            ("geekjob", RawDict None None);
            ("global_time", RawNumber 130)]
           Demo.running);
    [reflexivity | reflexivity | discriminate | reflexivity].
Defined.

Lemma search_command_service_error_witness :
  handle_search Py.ascii_strip Py.ascii_lower Demo.AVAILABLE_SITES
    Demo.DEFAULT_SITE_CHOICES Demo.get_site_name Demo.search_down
    (Some Demo.post_unknown_sites) Demo.command ["python"] Demo.running
  = (Return tt,
     emit (ReplyText 42 "🚨 Error: network unreachable" None)
       (emit (SearchAllSites "python" ["hh"]) Demo.running)).
Proof.
  apply (search_command_service_error Py.ascii_strip Py.ascii_lower
           Demo.AVAILABLE_SITES Demo.DEFAULT_SITE_CHOICES Demo.get_site_name
           Demo.search_down Demo.post_unknown_sites Demo.command
           (mkMessage 42 "/search python") 7 ["python"]
           (Py.mkExn "ConnectionError" "network unreachable") Demo.running);
    [reflexivity | reflexivity | discriminate | reflexivity].
Defined.

Lemma search_message_no_jobs_iff_witness :
  search_message Demo.get_site_name [] = "No jobs found".
Proof.
  apply (proj2 (search_message_no_jobs_iff Demo.get_site_name [])).
  reflexivity.
Defined.

Lemma search_command_without_user_witness :
  fst (handle_search Py.ascii_strip Py.ascii_lower Demo.AVAILABLE_SITES
         Demo.DEFAULT_SITE_CHOICES Demo.get_site_name Demo.search_four
         (Some Demo.post)
         (mkUpdate 3 None (Some (mkMessage 42 "/search python")) None)
         ["python"] Demo.running)
  = Raise (Py.AttributeError "id").
Proof.
  apply (search_command_without_user Py.ascii_strip Py.ascii_lower
           Demo.AVAILABLE_SITES Demo.DEFAULT_SITE_CHOICES Demo.get_site_name
           Demo.search_four (Some Demo.post)
           (mkUpdate 3 None (Some (mkMessage 42 "/search python")) None)
           ["python"] Demo.running).
  reflexivity.
Defined.

Lemma search_command_without_message_witness :
  fst (handle_search Py.ascii_strip Py.ascii_lower Demo.AVAILABLE_SITES
         Demo.DEFAULT_SITE_CHOICES Demo.get_site_name Demo.search_four
         (Some Demo.post) (Demo.inline "py") ["python"] Demo.running)
  = Raise (Py.AttributeError "reply_text").
Proof.
  apply (search_command_without_message Py.ascii_strip Py.ascii_lower
           Demo.AVAILABLE_SITES Demo.DEFAULT_SITE_CHOICES Demo.get_site_name
           Demo.search_four (Some Demo.post) (Demo.inline "py") 7 ["python"]
           Demo.running);
    reflexivity.
Defined.

Lemma webhook_frame_witness :
  trace (snd (telegram_webhook Demo.malformed_post Demo.running))
  = trace Demo.running.
Proof.
  apply (webhook_frame Demo.malformed_post Demo.running).
Defined.

Lemma keyword_empty_iff_witness : Py.join " " [""] = "".
Proof.
  apply (proj2 (keyword_empty_iff [""])). now right.
Defined.
